(** * readme-kit: the health-check server, embedded and verified

  A shallow embedding of the TypeScript sources

    - [src/infrastructure/config/environment.ts]
    - [src/shared/types/health.types.ts]
    - [src/infrastructure/web/controllers/health.controller.ts]
    - [src/infrastructure/web/routes/health.routes.ts]
    - [src/infrastructure/web/plugins/error-handler.plugin.ts]
    - [src/infrastructure/web/server.ts]

  together with the few ECMAScript and Fastify primitives these files
  call ([||], [parseInt], [reply.status], [reply.send], route lookup). *)

From Stdlib Require Import ZArith NArith List String Ascii Bool Lia.
From Stdlib Require Import DecimalString.
From Stdlib Require DecimalZ.
Import ListNotations.

#[local] Set Warnings "-register-all".

Local Open Scope Z_scope.

(* ================================================================== *)
(** * ECMAScript values *)
(* ================================================================== *)

Module JS.

(** A JavaScript string is a sequence of UTF-16 code units. *)
Definition jsstring : Type := list N.

(** String literals of the sources (all of them are ASCII). *)
Definition js (s : string) : jsstring :=
  map N_of_ascii (list_ascii_of_string s).

Definition jsstring_eqb (a b : jsstring) : bool :=
  if list_eq_dec N.eq_dec a b then true else false.

(** The Number values the program handles: [NaN], or an integer.
    A Number is a double: the integers up to 2^53 in magnitude are
    Numbers as they stand, and the properties below that name the value
    of a Number keep to them (beyond 2^53 JavaScript rounds, which
    [Num] does not describe).  Fractions and infinities are not
    described, and the sign of zero is not tracked. *)
Inductive number : Type :=
| NaN
| Num (z : Z).

Definition number_eq_dec (a b : number) : {a = b} + {a <> b}.
Proof. decide equality. apply Z.eq_dec. Defined.

(** ToBoolean on the two types above: the empty string, 0 and NaN are
    falsy. *)
Definition truthy_string (s : jsstring) : bool :=
  match s with
  | [] => false
  | _ :: _ => true
  end.

Definition truthy_number (n : number) : bool :=
  match n with
  | NaN => false
  | Num z => negb (z =? 0)
  end.

(** [a || b] where [a] is [string | undefined]. *)
Definition or_string (a : option jsstring) (b : jsstring) : jsstring :=
  match a with
  | Some s => if truthy_string s then s else b
  | None => b
  end.

(** [a || b] where [a] is [number | undefined]. *)
Definition or_number (a : option number) (b : number) : number :=
  match a with
  | Some n => if truthy_number n then n else b
  | None => b
  end.

(** ** [parseInt (string, radix)], ECMA-262 19.2.5 *)

(** WhiteSpace and LineTerminator code units, as [TrimString] strips. *)
Definition whiteSpaceCodeUnits : list N :=
  [ 0x0009; 0x000A; 0x000B; 0x000C; 0x000D; 0x0020; 0x00A0; 0x1680;
    0x2000; 0x2001; 0x2002; 0x2003; 0x2004; 0x2005; 0x2006; 0x2007;
    0x2008; 0x2009; 0x200A; 0x2028; 0x2029; 0x202F; 0x205F; 0x3000;
    0xFEFF ]%N.

Definition isWhiteSpace (c : N) : bool :=
  existsb (N.eqb c) whiteSpaceCodeUnits.

Fixpoint trimStart (s : jsstring) : jsstring :=
  match s with
  | c :: r => if isWhiteSpace c then trimStart r else s
  | [] => []
  end.

(** Value of a code unit as a digit: 0-9, then a-z and A-Z for 10-35. *)
Definition digitValue (c : N) : option Z :=
  if ((48 <=? c) && (c <=? 57))%N then Some (Z.of_N (c - 48))
  else if ((97 <=? c) && (c <=? 122))%N then Some (Z.of_N (c - 97) + 10)
  else if ((65 <=? c) && (c <=? 90))%N then Some (Z.of_N (c - 65) + 10)
  else None.

Definition radixDigit (R : Z) (c : N) : option Z :=
  match digitValue c with
  | Some d => if d <? R then Some d else None
  | None => None
  end.

(** The longest prefix of [s] made of radix-[R] digits, as digit values. *)
Fixpoint digitsPrefix (R : Z) (s : jsstring) : list Z :=
  match s with
  | c :: r =>
      match radixDigit R c with
      | Some d => d :: digitsPrefix R r
      | None => []
      end
  | [] => []
  end.

Definition mathInt (R : Z) (ds : list Z) : Z :=
  fold_left (fun acc d => R * acc + d) ds 0.

(** Steps 3-4: an optional leading sign. *)
Definition splitSign (s : jsstring) : Z * jsstring :=
  match s with
  | 45%N :: r => (-1, r)
  | 43%N :: r => (1, r)
  | _ => (1, s)
  end.

(** Steps 9-10: a leading [0x] or [0X], looked for when the radix is 16
    or absent; when it is there it is removed and the radix is 16. *)
Definition hasHexPrefix (s : jsstring) : bool :=
  match s with
  | 48%N :: 120%N :: _ => true
  | 48%N :: 88%N :: _ => true
  | _ => false
  end.

Definition stripHexPrefix (s : jsstring) : jsstring :=
  match s with
  | 48%N :: 120%N :: r => r
  | 48%N :: 88%N :: r => r
  | _ => s
  end.

(** The value is the integer the digits denote; it is the Number
    [parseInt] returns as long as it is at most 2^53 in magnitude. *)
Definition parseInt (input : jsstring) (radix : Z) : number :=
  let (sign, S) := splitSign (trimStart input) in
  if (negb (radix =? 0)) && ((radix <? 2) || (36 <? radix)) then NaN
  else
    let hex := ((radix =? 0) || (radix =? 16)) && hasHexPrefix S in
    let R := if hex then 16 else if radix =? 0 then 10 else radix in
    let S := if hex then stripHexPrefix S else S in
    match digitsPrefix R S with
    | [] => NaN
    | ds => Num (sign * mathInt R ds)
    end.

End JS.

(* ================================================================== *)
(** * [src/infrastructure/config/environment.ts] *)
(* ================================================================== *)

Module Environment.
Import JS.

(** [process.env]: each variable is a string, or undefined. *)
Definition ProcessEnv : Type := string -> option jsstring.

(** The environment given by a list of [NAME=value] bindings (the first
    binding of a name wins). *)
Fixpoint env_of (bindings : list (string * jsstring)) : ProcessEnv :=
  fun name =>
    match bindings with
    | [] => None
    | (k, v) :: rest => if String.eqb k name then Some v else env_of rest name
    end.

Record Config : Type := mkConfig {
  port : number;
  nodeEnv : jsstring;
  host : jsstring
}.

(** [export const config = { port: parseInt(process.env.PORT || '3000', 10),
      nodeEnv: process.env.NODE_ENV || 'production',
      host: process.env.HOST || '0.0.0.0' }] *)
Definition config (env : ProcessEnv) : Config :=
  {| port := parseInt (or_string (env "PORT"%string) (js "3000")) 10;
     nodeEnv := or_string (env "NODE_ENV"%string) (js "production");
     host := or_string (env "HOST"%string) (js "0.0.0.0") |}.

(** Does the string start with a decimal digit? *)
Definition startsWithDecimalDigit (s : jsstring) : bool :=
  match s with
  | c :: _ => ((48 <=? c) && (c <=? 57))%N
  | [] => false
  end.

End Environment.

(* ================================================================== *)
(** * The Fastify primitives the sources call *)
(* ================================================================== *)

Module Fastify.
Import JS.

(** Payloads handed to [reply.send] or returned by a handler. *)
Inductive JSON : Type :=
| JStr (s : jsstring)
| JNum (n : number)
| JObj (fields : list (string * JSON)).

Inductive HTTPMethods : Type :=
| GET | HEAD | POST | PUT | DELETE | PATCH | OPTIONS | TRACE.

Definition HTTPMethods_eqb (a b : HTTPMethods) : bool :=
  match a, b with
  | GET, GET | HEAD, HEAD | POST, POST | PUT, PUT | DELETE, DELETE
  | PATCH, PATCH | OPTIONS, OPTIONS | TRACE, TRACE => true
  | _, _ => false
  end.

(** A request as the HTTP server hands it to the framework: the method,
    the path of the request target as it was sent (without the query
    string), the query string, the headers and the body. *)
Record FastifyRequest : Type := mkRequest {
  method : HTTPMethods;
  url : jsstring;
  query : jsstring;
  headers : list (jsstring * jsstring);
  body : option JSON
}.

(** [FastifyError]: every field but [message] may be missing. *)
Record FastifyError : Type := mkError {
  code : option jsstring;
  statusCode : option number;
  name : option jsstring;
  message : jsstring
}.

(** The reply object: the status code to be written, and the payload
    handed to [send] once [send] has been called.  Whether the payload
    becomes the body of the response is decided later: the server
    writes no body for a HEAD request, nor with a status 1xx, 204 or
    304, and a response schema of the route serialises the payload. *)
Record FastifyReply : Type := mkReply {
  raw_statusCode : number;
  payload : option JSON;
  sent : bool
}.

(** A fresh reply, as the framework hands it to a handler. *)
Definition newReply : FastifyReply :=
  {| raw_statusCode := Num 200; payload := None; sent := false |}.

(** ** Code that runs against a reply: state and exceptions *)

Inductive Completion (A : Type) : Type :=
| Returned (a : A)
| Thrown (e : FastifyError).
Arguments Returned {A} a.
Arguments Thrown {A} e.

Definition ReplyM (A : Type) : Type :=
  FastifyReply -> Completion A * FastifyReply.

Definition ret {A} (a : A) : ReplyM A := fun r => (Returned a, r).

Definition throw {A} (e : FastifyError) : ReplyM A := fun r => (Thrown e, r).

Definition bind {A B} (m : ReplyM A) (k : A -> ReplyM B) : ReplyM B :=
  fun r =>
    match m r with
    | (Returned a, r') => k a r'
    | (Thrown e, r') => (Thrown e, r')
    end.

Notation "x <- m ;; k" := (bind m (fun x => k))
  (at level 61, m at next level, right associativity).
Notation "m ;; k" := (bind m (fun _ => k))
  (at level 61, right associativity).

(** Decimal text of a number, for messages: the text JavaScript prints
    for the integers up to 2^53 in magnitude (it prints larger Numbers
    rounded, and in exponent form from 1e21 on). *)
Definition numberToString (n : number) : jsstring :=
  match n with
  | NaN => js "NaN"
  | Num z => js (NilZero.string_of_int (Z.to_int z))
  end.

Definition FST_ERR_BAD_STATUS_CODE (c : number) : FastifyError :=
  {| code := Some (js "FST_ERR_BAD_STATUS_CODE");
     statusCode := Some (Num 500);
     name := Some (js "FastifyError");
     message := (js "Called reply with an invalid status code: "
                 ++ numberToString c)%list |}.

(** [reply.status(code)] (alias of [reply.code]): the framework accepts
    the codes from 100 to 599 and throws on anything else. *)
Definition validStatusCode (c : number) : bool :=
  match c with
  | NaN => false
  | Num z => (100 <=? z) && (z <=? 599)
  end.

Definition status (c : number) : ReplyM unit :=
  fun r =>
    if validStatusCode c
    then (Returned tt,
          {| raw_statusCode := c; payload := payload r; sent := sent r |})
    else (Thrown (FST_ERR_BAD_STATUS_CODE c), r).

(** [reply.send(payload)]: a reply is sent once; a second [send] is
    logged and dropped. *)
Definition send (p : JSON) : ReplyM unit :=
  fun r =>
    if sent r then (Returned tt, r)
    else (Returned tt,
          {| raw_statusCode := raw_statusCode r;
             payload := Some p; sent := true |}).

(** ** Response schemas (the fragment [health.routes.ts] uses) *)

Inductive Schema : Type :=
| SString (const : option jsstring)
| SObject (properties : list (string * Schema)) (required : list string).

Fixpoint lookupField (k : string) (fields : list (string * JSON))
  : option JSON :=
  match fields with
  | [] => None
  | (k', v) :: rest => if String.eqb k' k then Some v else lookupField k rest
  end.

Fixpoint conforms (s : Schema) (v : JSON) {struct s} : bool :=
  match s, v with
  | SString None, JStr _ => true
  | SString (Some c), JStr x => jsstring_eqb x c
  | SObject props required, JObj fields =>
      forallb (fun k => match lookupField k fields with
                        | Some _ => true
                        | None => false
                        end) required
      && (fix each (ps : list (string * Schema)) : bool :=
            match ps with
            | [] => true
            | (k, sk) :: rest =>
                match lookupField k fields with
                | Some vk => conforms sk vk
                | None => true
                end && each rest
            end) props
  | _, _ => false
  end.

(** ** The instance: options, routing table, error handler *)

(** The options described here; the options of the router (case
    sensitivity, trailing and duplicate slashes, URL rewriting) keep
    their defaults. *)

Record FastifyServerOptions : Type := mkOptions {
  logger : option bool;
  bodyLimit : option Z;
  exposeHeadRoutes : option bool
}.

(** [{}], the default argument of [buildServer]. *)
Definition noOptions : FastifyServerOptions :=
  {| logger := None; bodyLimit := None; exposeHeadRoutes := None |}.

(** The options the framework accepts: a [bodyLimit], when given, is a
    positive integer (with any other, creating the instance fails and
    there is no server). *)
Definition validOptions (opts : FastifyServerOptions) : bool :=
  match bodyLimit opts with
  | Some limit => 0 <? limit
  | None => true
  end.

(** The handlers of the routing table.  The two functions of
    [health.routes.ts] are kept apart by name, so that the table tells
    which one a request reaches; [Inline] is any other handler an
    application declares. *)
Inductive RouteHandler : Type :=
| HealthController
| MethodNotAllowedHandler
| Inline (f : FastifyRequest -> ReplyM (option JSON)).

Record Route : Type := mkRoute {
  route_method : HTTPMethods;
  route_url : jsstring;
  route_response : list (Z * Schema);
  route_handler : RouteHandler
}.

Definition ErrorHandler : Type :=
  FastifyError -> FastifyRequest -> ReplyM unit.

Record FastifyInstance : Type := mkInstance {
  options : FastifyServerOptions;
  routes : list Route;
  errorHandlerFn : option ErrorHandler
}.

(** [Fastify(options)] *)
Definition Fastify (opts : FastifyServerOptions) : FastifyInstance :=
  {| options := opts; routes := []; errorHandlerFn := None |}.

Definition addRoute (f : FastifyInstance) (r : Route) : FastifyInstance :=
  {| options := options f;
     routes := (routes f ++ [r])%list;
     errorHandlerFn := errorHandlerFn f |}.

(** [fastify.get(url, { schema: { response } }, handler)].  With
    [exposeHeadRoutes] (on unless the options turn it off) the
    framework adds a sibling HEAD route with the same handler. *)
Definition get (f : FastifyInstance) (u : jsstring)
    (response : list (Z * Schema)) (h : RouteHandler) : FastifyInstance :=
  let f1 := addRoute f (mkRoute GET u response h) in
  match exposeHeadRoutes (options f) with
  | Some false => f1
  | _ => addRoute f1 (mkRoute HEAD u response h)
  end.

Definition post (f : FastifyInstance) (u : jsstring) (h : RouteHandler) :=
  addRoute f (mkRoute POST u [] h).
Definition put (f : FastifyInstance) (u : jsstring) (h : RouteHandler) :=
  addRoute f (mkRoute PUT u [] h).
Definition delete (f : FastifyInstance) (u : jsstring) (h : RouteHandler) :=
  addRoute f (mkRoute DELETE u [] h).
Definition patch (f : FastifyInstance) (u : jsstring) (h : RouteHandler) :=
  addRoute f (mkRoute PATCH u [] h).

Definition setErrorHandler (f : FastifyInstance) (h : ErrorHandler)
  : FastifyInstance :=
  {| options := options f; routes := routes f; errorHandlerFn := Some h |}.

(** [fastify.register(plugin)].  [healthRoutes] only declares routes and
    the error handler is wrapped in [fastify-plugin], so both act on
    the instance they are registered on. *)
Definition register (f : FastifyInstance)
    (plugin : FastifyInstance -> FastifyInstance) : FastifyInstance :=
  plugin f.

(** Route lookup by method and path, for the paths the router takes
    literally (see [plainPath]). *)
Definition findRoute (f : FastifyInstance) (m : HTTPMethods) (u : jsstring)
  : option Route :=
  find (fun r => HTTPMethods_eqb (route_method r) m
                 && jsstring_eqb (route_url r) u) (routes f).

(** The code units a path is made of when nothing in it is encoded or
    special to the router: letters, digits, [/], [-], [.], [_] and [~]. *)
Definition pathCodeUnit (c : N) : bool :=
  (((48 <=? c) && (c <=? 57)) || ((65 <=? c) && (c <=? 90))
   || ((97 <=? c) && (c <=? 122))
   || (c =? 47) || (c =? 45) || (c =? 46) || (c =? 95) || (c =? 126))%N.

(** A path the router matches as it stands, code unit by code unit: it
    starts with [/] and has no percent-encoding (which the router
    decodes before it matches) and no parameter, wildcard or regular
    expression sign. *)
Definition plainPath (u : jsstring) : bool :=
  match u with
  | 47%N :: _ => forallb pathCodeUnit u
  | _ => false
  end.

(** Header names are matched without regard to case. *)
Definition asciiLower (c : N) : N :=
  if ((65 <=? c) && (c <=? 90))%N then (c + 32)%N else c.

Fixpoint header (name : jsstring) (hs : list (jsstring * jsstring))
  : option jsstring :=
  match hs with
  | [] => None
  | (k, v) :: rest =>
      if jsstring_eqb (map asciiLower k) name then Some v else header name rest
  end.

(** Does the request announce a body?  It does with a [content-type]
    header, with a [transfer-encoding] header, or with a
    [content-length] other than [0]. *)
Definition announcesBody (request : FastifyRequest) : bool :=
  match body request with Some _ => true | None => false end
  || match header (js "content-type") (headers request) with
     | Some _ => true
     | None => false
     end
  || match header (js "transfer-encoding") (headers request) with
     | Some _ => true
     | None => false
     end
  || match header (js "content-length") (headers request) with
     | Some v => negb (jsstring_eqb v (js "0"))
     | None => false
     end.

(** Before the handler of a route runs, the framework hands a request
    that announces a body to its content type parser, except for the
    methods that carry none (GET, HEAD, TRACE). *)
Definition needsBodyParser (request : FastifyRequest) : bool :=
  match method request with
  | GET | HEAD | TRACE => false
  | POST | PUT | DELETE | PATCH | OPTIONS => announcesBody request
  end.

End Fastify.

(* ================================================================== *)
(** * [src/shared/types/health.types.ts] *)
(* ================================================================== *)

Module HealthTypes.
Import JS Fastify.

(** The literal type ['ok']. *)
Inductive StatusLiteral : Type := ok.

(** [export interface HealthResponse { status: 'ok' }] *)
Record HealthResponse : Type := mkHealthResponse {
  status : StatusLiteral
}.

Definition literal (s : StatusLiteral) : jsstring :=
  match s with
  | ok => js "ok"
  end.

(** The object a [HealthResponse] is at run time. *)
Definition toJSON (r : HealthResponse) : JSON :=
  JObj [("status"%string, JStr (literal (status r)))].

End HealthTypes.

(* ================================================================== *)
(** * [src/infrastructure/web/controllers/health.controller.ts] *)
(* ================================================================== *)

Module HealthController.
Import JS Fastify HealthTypes.

(** [export async function healthController(_request, _reply)
      : Promise<HealthResponse> { return { status: 'ok' }; }] *)
Definition healthController (_request : FastifyRequest)
  : ReplyM HealthResponse :=
  ret {| status := ok |}.

End HealthController.

(* ================================================================== *)
(** * [src/infrastructure/web/routes/health.routes.ts] *)
(* ================================================================== *)

Module HealthRoutes.
Import JS Fastify.

(** [schema: { response: { 200: { type: 'object',
      properties: { status: { type: 'string', const: 'ok' } },
      required: ['status'] } } }] *)
Definition statusSchema : list (Z * Schema) :=
  [ (200, SObject [("status"%string, SString (Some (js "ok")))]
                  ["status"%string]) ].

(** [const methodNotAllowedHandler = async (_request, reply) => {
      await reply.status(405).send({ statusCode: 405,
        error: 'Method Not Allowed',
        message: 'GET method required for /status endpoint' }); }] *)
Definition methodNotAllowedHandler (_request : FastifyRequest)
  : ReplyM unit :=
  status (Num 405) ;;
  send (JObj [ ("statusCode"%string, JNum (Num 405));
               ("error"%string, JStr (js "Method Not Allowed"));
               ("message"%string,
                JStr (js "GET method required for /status endpoint")) ]).

(** [export async function healthRoutes(fastify)] *)
Definition healthRoutes (fastify : FastifyInstance) : FastifyInstance :=
  let fastify := get fastify (js "/status") statusSchema HealthController in
  let fastify := post fastify (js "/status") MethodNotAllowedHandler in
  let fastify := put fastify (js "/status") MethodNotAllowedHandler in
  let fastify := delete fastify (js "/status") MethodNotAllowedHandler in
  patch fastify (js "/status") MethodNotAllowedHandler.

End HealthRoutes.

(* ================================================================== *)
(** * [src/infrastructure/web/plugins/error-handler.plugin.ts] *)
(* ================================================================== *)

Module ErrorHandlerPlugin.
Import JS Fastify.

(** The callback given to [setErrorHandler]:
    [(error, _request, reply) => {
       const statusCode = error.statusCode || 500;
       reply.status(statusCode).send({ statusCode,
         error: error.name || 'Error', message: error.message }); }] *)
Definition onError (error : FastifyError) (_request : FastifyRequest)
  : ReplyM unit :=
  let statusCode := or_number (statusCode error) (Num 500) in
  status statusCode ;;
  send (JObj [ ("statusCode"%string, JNum statusCode);
               ("error"%string, JStr (or_string (name error) (js "Error")));
               ("message"%string, JStr (message error)) ]).

(** [async function errorHandler(fastify) { fastify.setErrorHandler(...) }],
    exported through [fp]. *)
Definition errorHandler (fastify : FastifyInstance) : FastifyInstance :=
  setErrorHandler fastify onError.

End ErrorHandlerPlugin.

(* ================================================================== *)
(** * [src/infrastructure/web/server.ts] *)
(* ================================================================== *)

Module Server.
Import JS Fastify HealthTypes HealthController HealthRoutes ErrorHandlerPlugin.

(** [export async function buildServer(opts = {}) {
      const fastify = Fastify({ logger: opts.logger ?? true, ...opts });
      await fastify.register(errorHandler);
      await fastify.register(healthRoutes);
      return fastify; }] *)
Definition buildServer (opts : FastifyServerOptions) : FastifyInstance :=
  let fastify :=
    Fastify {| logger := Some (match logger opts with
                               | Some b => b
                               | None => true
                               end);
               bodyLimit := bodyLimit opts;
               exposeHeadRoutes := exposeHeadRoutes opts |} in
  let fastify := register fastify errorHandler in
  let fastify := register fastify healthRoutes in
  fastify.

(** ** Serving a request *)

(** Running the handler a route names. *)
Definition callHandler (h : RouteHandler) (request : FastifyRequest)
  : ReplyM (option JSON) :=
  match h with
  | HealthController =>
      r <- healthController request ;; ret (Some (toJSON r))
  | MethodNotAllowedHandler =>
      methodNotAllowedHandler request ;; ret None
  | Inline f => f request
  end.

(** What the framework does with one request: a reply was sent; no route
    matched (the framework answers 404 on its own); the handler neither
    sent a reply nor returned a payload; or an error is left to the
    framework's own error handler.  Two stages of the framework are
    named and not described further: the decoding of a path that is not
    plain, and the content type parser, which reads the body of a
    request before the handler runs and may answer in its place. *)
Inductive Outcome : Type :=
| Replied (reply : FastifyReply)
| RouteNotFound
| NoReply
| FallbackErrorHandler (e : FastifyError)
| PathDecoding
| ContentTypeParser.

(** The handler the routing table selects for a request, if any. *)
Definition invoked (fastify : FastifyInstance) (request : FastifyRequest)
  : option RouteHandler :=
  option_map route_handler (findRoute fastify (method request) (url request)).

(** The handler stage: either the returned payload is sent or the
    thrown error goes to the error handler set on the instance. *)
Definition runHandler (fastify : FastifyInstance) (h : RouteHandler)
    (request : FastifyRequest) : Outcome :=
  match callHandler h request newReply with
  | (Returned v, r) =>
      if sent r then Replied r
      else match v with
           | Some p => Replied (snd (send p r))
           | None => NoReply
           end
  | (Thrown e, r) =>
      if sent r then Replied r
      else match errorHandlerFn fastify with
           | None => FallbackErrorHandler e
           | Some onErr =>
               match onErr e request r with
               | (Returned _, r') =>
                   if sent r' then Replied r' else NoReply
               | (Thrown e', _) => FallbackErrorHandler e'
               end
           end
  end.

(** Route lookup on a plain path, then the handler, unless the request
    announces a body that the content type parser reads first. *)
Definition inject (fastify : FastifyInstance) (request : FastifyRequest)
  : Outcome :=
  if plainPath (url request) then
    match invoked fastify request with
    | None => RouteNotFound
    | Some h =>
        if needsBodyParser request then ContentTypeParser
        else runHandler fastify h request
    end
  else PathDecoding.

(** The outcomes of a sequence of requests, in order. *)
Definition serve (fastify : FastifyInstance) (requests : list FastifyRequest)
  : list Outcome :=
  map (inject fastify) requests.

End Server.

(* ================================================================== *)
(** * Properties of the configuration *)
(* ================================================================== *)

Section ConfigurationProperties.
Import JS Environment.

Lemma or_string_unset (b : jsstring) : or_string None b = b.
Proof. reflexivity. Qed.

Lemma or_string_empty (b : jsstring) : or_string (Some []) b = b.
Proof. reflexivity. Qed.

Lemma or_string_nonempty (s b : jsstring) :
  s <> [] -> or_string (Some s) b = s.
Proof. destruct s as [|c s]; [congruence | reflexivity]. Qed.

(** In radix 10 only the code units of [0]-[9] are digits. *)
Lemma radixDigit_decimal (c : N) :
  radixDigit 10 c = None <-> ((48 <=? c) && (c <=? 57))%N = false.
Proof.
  unfold radixDigit, digitValue.
  destruct ((48 <=? c) && (c <=? 57))%N eqn:Hdec.
  - apply andb_true_iff in Hdec as [H1 H2].
    apply N.leb_le in H1, H2.
    assert (Hlt : (Z.of_N (c - 48) <? 10) = true) by (apply Z.ltb_lt; lia).
    rewrite Hlt. split; discriminate.
  - split; [reflexivity | intros _].
    destruct ((97 <=? c) && (c <=? 122))%N eqn:Hlow.
    + assert (Hge : (Z.of_N (c - 97) + 10 <? 10) = false) by (apply Z.ltb_ge; lia).
      now rewrite Hge.
    + destruct ((65 <=? c) && (c <=? 90))%N; [|reflexivity].
      assert (Hge : (Z.of_N (c - 65) + 10 <? 10) = false) by (apply Z.ltb_ge; lia).
      now rewrite Hge.
Qed.

Lemma digitsPrefix_decimal_nil (s : jsstring) :
  digitsPrefix 10 s = [] <-> startsWithDecimalDigit s = false.
Proof.
  destruct s as [|c r]; simpl; [tauto|].
  rewrite <- radixDigit_decimal.
  destruct (radixDigit 10 c); split; congruence.
Qed.

(** [parseInt(s, 10)] is [NaN] exactly when, after the leading white space
    and one optional sign, [s] does not go on with a decimal digit. *)
Lemma parseInt_decimal_NaN (s : jsstring) :
  parseInt s 10 = NaN <->
  startsWithDecimalDigit (snd (splitSign (trimStart s))) = false.
Proof.
  unfold parseInt.
  destruct (splitSign (trimStart s)) as [sign rest]; simpl.
  rewrite <- digitsPrefix_decimal_nil.
  destruct (digitsPrefix 10 rest); split; congruence.
Qed.

End ConfigurationProperties.

Section ConfigurationClaims.
Import JS Environment.
Local Open Scope string_scope.

(** C10, as stated, fails on the code.  With [PORT] set to the empty
    string [config.port] is 3000 and not [parseInt(PORT, 10)], which is
    [NaN]; and with [PORT=-5], a value that does not start with a digit,
    [config.port] is -5 and not [NaN]. *)
Lemma config_port_counterexample :
  ~ (forall (env : ProcessEnv) (p : jsstring),
        env "PORT" = Some p -> port (config env) = parseInt p 10)
  /\ ~ (forall (env : ProcessEnv) (p : jsstring),
          env "PORT" = Some p -> startsWithDecimalDigit p = false ->
          port (config env) = NaN).
Proof.
  split.
  - intros H.
    specialize (H (env_of [("PORT", [])]) [] eq_refl).
    vm_compute in H. discriminate H.
  - intros H.
    specialize (H (env_of [("PORT", js "-5")]) (js "-5") eq_refl eq_refl).
    vm_compute in H. discriminate H.
Qed.

(** C10 (amended): [config.port] is [parseInt(PORT, 10)] when [PORT] is
    set to a non-empty string, and 3000 when it is unset or empty; no
    validation is applied, so a non-empty [PORT] that, after leading
    white space and one optional sign, does not go on with a decimal
    digit makes [config.port] NaN; [config.host] and [config.nodeEnv]
    are ['0.0.0.0'] and ['production'] when their variables are unset. *)
Theorem config_from_environment (env : ProcessEnv) :
  (forall p, env "PORT" = Some p -> p <> [] ->
             port (config env) = parseInt p 10)
  /\ (env "PORT" = None \/ env "PORT" = Some [] ->
      port (config env) = Num 3000)
  /\ (forall p, env "PORT" = Some p -> p <> [] ->
                startsWithDecimalDigit (snd (splitSign (trimStart p))) = false ->
                port (config env) = NaN)
  /\ (env "HOST" = None -> host (config env) = js "0.0.0.0")
  /\ (env "NODE_ENV" = None -> nodeEnv (config env) = js "production").
Proof.
  unfold config; simpl.
  refine (conj _ (conj _ (conj _ (conj _ _)))).
  - intros p Hp Hne. rewrite Hp, or_string_nonempty by assumption. reflexivity.
  - intros [H | H]; rewrite H; reflexivity.
  - intros p Hp Hne Hnodigit.
    rewrite Hp, or_string_nonempty by assumption.
    now apply parseInt_decimal_NaN.
  - intros H. now rewrite H.
  - intros H. now rewrite H.
Qed.

Lemma config_from_environment_witness :
  port (config (env_of [("PORT", js "8080")])) = Num 8080
  /\ port (config (env_of [])) = Num 3000
  /\ port (config (env_of [("PORT", [])])) = Num 3000
  /\ port (config (env_of [("PORT", js "abc"); ("HOST", js "127.0.0.1")])) = NaN
  /\ host (config (env_of [("PORT", js "8080")])) = js "0.0.0.0"
  /\ nodeEnv (config (env_of [("PORT", js "8080")])) = js "production".
Proof.
  destruct (config_from_environment (env_of [("PORT", js "8080")]))
    as (Hset & _ & _ & Hhost & Hnode).
  destruct (config_from_environment (env_of [])) as (_ & Hunset & _).
  destruct (config_from_environment (env_of [("PORT", [])]))
    as (_ & Hempty & _).
  destruct (config_from_environment
              (env_of [("PORT", js "abc"); ("HOST", js "127.0.0.1")]))
    as (_ & _ & Hnan & _).
  refine (conj _ (conj _ (conj _ (conj _ (conj _ _))))).
  - rewrite (Hset (js "8080") eq_refl); [reflexivity | discriminate].
  - apply Hunset. left. reflexivity.
  - apply Hempty. right. reflexivity.
  - apply (Hnan (js "abc") eq_refl); [discriminate | reflexivity].
  - apply Hhost. reflexivity.
  - apply Hnode. reflexivity.
Defined.

End ConfigurationClaims.

(* ================================================================== *)
(** * Properties of the server *)
(* ================================================================== *)

Section ServerProperties.
Import JS Fastify HealthController HealthRoutes ErrorHandlerPlugin Server.
Local Open Scope string_scope.

(** The plugin's handler is the one set on every server [buildServer]
    returns, and on that server with further routes declared. *)
Lemma buildServer_errorHandler (opts : FastifyServerOptions) :
  errorHandlerFn (buildServer opts) = Some onError.
Proof. destruct opts as [l b [[|]|]]; reflexivity. Qed.

Lemma get_errorHandler f u response h :
  errorHandlerFn (get f u response h) = errorHandlerFn f.
Proof. unfold get. destruct (exposeHeadRoutes (options f)) as [[|]|]; reflexivity. Qed.

(** The routes [healthRoutes] declares for the other methods answer 405
    through [methodNotAllowedHandler], for a request that announces no
    body (one that does goes through the content type parser first). *)
Lemma method_not_allowed_405 (opts : FastifyServerOptions)
    (request : FastifyRequest) :
  validOptions opts = true ->
  url request = js "/status" ->
  In (method request) [POST; PUT; DELETE; PATCH] ->
  needsBodyParser request = false ->
  invoked (buildServer opts) request = Some MethodNotAllowedHandler
  /\ inject (buildServer opts) request =
       Replied {| raw_statusCode := Num 405;
                  payload :=
                    Some (JObj [ ("statusCode", JNum (Num 405));
                                 ("error", JStr (js "Method Not Allowed"));
                                 ("message",
                                  JStr (js "GET method required for /status endpoint")) ]);
                  sent := true |}.
Proof.
  intros _ Hu Hm Hparse. unfold inject. rewrite Hparse.
  destruct request as [m u q hs b]; simpl in *. subst u. clear Hparse.
  destruct opts as [l bl [[|]|]];
    (destruct Hm as [<- | [<- | [<- | [<- | []]]]]; split; reflexivity).
Qed.

(** The object [healthController] returns is the one the response schema
    of the route describes. *)
Lemma health_payload_conforms (request : FastifyRequest) (reply : FastifyReply) :
  forall r, fst (healthController request reply) = Returned r ->
  forall s, In (200, s) statusSchema -> conforms s (HealthTypes.toJSON r) = true.
Proof.
  intros r Hr s [Hs | []]. inversion Hs; subst s.
  inversion Hr; subst r. reflexivity.
Qed.

(** The two steps of [onError]: [reply.status] accepted the code, then
    [reply.send] sent the body. *)
Lemma onError_valid (error : FastifyError) (request : FastifyRequest)
    (reply : FastifyReply) :
  sent reply = false ->
  validStatusCode (or_number (statusCode error) (Num 500)) = true ->
  onError error request reply =
    (Returned tt,
     {| raw_statusCode := or_number (statusCode error) (Num 500);
        payload :=
          Some (JObj [ ("statusCode",
                        JNum (or_number (statusCode error) (Num 500)));
                       ("error", JStr (or_string (name error) (js "Error")));
                       ("message", JStr (message error)) ]);
        sent := true |}).
Proof.
  intros Hsent Hvalid. unfold onError, bind, Fastify.status, send.
  rewrite Hvalid. simpl. rewrite Hsent. reflexivity.
Qed.

(** A status code outside 100..599 (and not 0) is refused by
    [reply.status]: [onError] throws before sending anything, and the
    error is left to the framework's own handler. *)
Lemma onError_invalid (error : FastifyError) (request : FastifyRequest)
    (reply : FastifyReply) (z : Z) :
  statusCode error = Some (Num z) -> z <> 0 -> z < 100 \/ 599 < z ->
  onError error request reply = (Thrown (FST_ERR_BAD_STATUS_CODE (Num z)), reply).
Proof.
  intros Hs Hz Hrange. unfold onError, bind, Fastify.status.
  rewrite Hs; simpl.
  assert (Hnz : Z.eqb z 0 = false) by (apply Z.eqb_neq; exact Hz).
  rewrite Hnz; simpl.
  assert (Hbad : (Z.leb 100 z && Z.leb z 599) = false).
  { apply andb_false_iff. destruct Hrange; [left; apply Z.leb_gt | right; apply Z.leb_gt]; lia. }
  rewrite Hbad. reflexivity.
Qed.

End ServerProperties.

Section ServerClaims.
Import JS Fastify HealthController HealthRoutes ErrorHandlerPlugin Server.
Local Open Scope string_scope.

(** C1: every GET request to [/status] reaches [healthController], which
    returns the constant object [{ status: 'ok' }] and leaves the reply
    untouched; whatever the options of the server and whatever requests
    were served before it, the request is answered 200 with that
    object. *)
Theorem status_always_ok (opts : FastifyServerOptions)
    (prior : list FastifyRequest) (request : FastifyRequest) :
  method request = GET ->
  url request = js "/status" ->
  (forall reply,
      healthController request reply =
        (Returned {| HealthTypes.status := HealthTypes.ok |}, reply))
  /\ invoked (buildServer opts) request = Some HealthController
  /\ nth_error (serve (buildServer opts) (prior ++ [request])%list)
            (List.length prior) =
       Some (Replied {| raw_statusCode := Num 200;
                        payload := Some (JObj [("status", JStr (js "ok"))]);
                        sent := true |}).
Proof.
  intros Hm Hu.
  destruct request as [m u q hs b]; simpl in Hm, Hu; subst m u.
  split; [reflexivity|].
  split.
  - destruct opts as [l bl [[|]|]]; reflexivity.
  - unfold serve. rewrite map_app.
    rewrite nth_error_app2 by (rewrite length_map; apply Nat.le_refl).
    rewrite length_map, Nat.sub_diag. simpl. f_equal.
    destruct opts as [l bl [[|]|]]; reflexivity.
Qed.

Lemma status_always_ok_witness :
  let prior := [ mkRequest POST (js "/status") [] [] None;
                 mkRequest GET (js "/missing") [] [] None ] in
  let request := mkRequest GET (js "/status") (js "foo=bar") [] None in
  method request = GET
  /\ url request = js "/status"
  /\ nth_error (serve (buildServer noOptions) (prior ++ [request])%list) 2 =
       Some (Replied {| raw_statusCode := Num 200;
                        payload := Some (JObj [("status", JStr (js "ok"))]);
                        sent := true |}).
Proof.
  intros prior request.
  refine (conj eq_refl (conj eq_refl _)).
  exact (proj2 (proj2 (status_always_ok noOptions prior request eq_refl eq_refl))).
Defined.

(** C2 fails on the code for the methods [healthRoutes] declares no
    route for.  An OPTIONS or TRACE request to [/status] finds no route
    at all, on every server [buildServer] returns, so no 405 is sent;
    and on the default server a HEAD request reaches [healthController]
    through the sibling route of the GET route and is answered 200. *)
Theorem undeclared_methods_get_no_405 (opts : FastifyServerOptions)
    (q : jsstring) (hs : list (jsstring * jsstring)) (b : option JSON) :
  inject (buildServer opts) (mkRequest OPTIONS (js "/status") q hs b)
    = RouteNotFound
  /\ inject (buildServer opts) (mkRequest TRACE (js "/status") q hs b)
       = RouteNotFound
  /\ invoked (buildServer noOptions) (mkRequest HEAD (js "/status") q hs b)
       = Some HealthController
  /\ inject (buildServer noOptions) (mkRequest HEAD (js "/status") q hs b)
       = Replied {| raw_statusCode := Num 200;
                    payload := Some (JObj [("status", JStr (js "ok"))]);
                    sent := true |}.
Proof.
  destruct opts as [l bl [[|]|]]; repeat split; reflexivity.
Qed.




End ServerClaims.

(* ================================================================== *)
(** * The routing table of the server *)
(* ================================================================== *)

Section RoutingTable.
Import JS Fastify HealthController HealthRoutes ErrorHandlerPlugin Server.
Local Open Scope string_scope.

Lemma jsstring_eqb_eq (a b : jsstring) : jsstring_eqb a b = true <-> a = b.
Proof.
  unfold jsstring_eqb. destruct (list_eq_dec N.eq_dec a b); split; congruence.
Qed.

Lemma HTTPMethods_eqb_eq (a b : HTTPMethods) :
  HTTPMethods_eqb a b = true <-> a = b.
Proof. destruct a, b; simpl; split; congruence. Qed.

(** A route that [findRoute] returns is in the table and matches. *)
Lemma findRoute_Some f m u r :
  findRoute f m u = Some r ->
  In r (routes f) /\ route_method r = m /\ route_url r = u.
Proof.
  unfold findRoute. intros H. apply find_some in H as [Hin Hmatch].
  apply andb_true_iff in Hmatch as [Hm Hu].
  apply HTTPMethods_eqb_eq in Hm. apply jsstring_eqb_eq in Hu. auto.
Qed.

(** No route of the table has the path: nothing is found. *)
Lemma findRoute_other_path f m u :
  (forall r, In r (routes f) -> route_url r <> u) ->
  findRoute f m u = None.
Proof.
  intros Hall. destruct (findRoute f m u) as [r|] eqn:Hfind; [|reflexivity].
  apply findRoute_Some in Hfind as (Hin & _ & Hu).
  exfalso. exact (Hall r Hin Hu).
Qed.

(** The table [buildServer] builds: every route is on [/status]; the GET
    route and its HEAD sibling carry [healthController] and the response
    schema, the four others carry [methodNotAllowedHandler]. *)
Lemma buildServer_routes (opts : FastifyServerOptions) (r : Route) :
  In r (routes (buildServer opts)) ->
  route_url r = js "/status"
  /\ (((route_method r = GET \/ route_method r = HEAD)
       /\ route_handler r = HealthController
       /\ route_response r = statusSchema)
      \/ (In (route_method r) [POST; PUT; DELETE; PATCH]
          /\ route_handler r = MethodNotAllowedHandler
          /\ route_response r = [])).
Proof.
  destruct opts as [l bl [[|]|]]; simpl; intros H;
    repeat (destruct H as [<- | H]; [simpl; split; [reflexivity|tauto] |]);
    contradiction.
Qed.

Lemma find_append {A} (p : A -> bool) (l1 l2 : list A) :
  find p (l1 ++ l2)%list =
    match find p l1 with
    | Some x => Some x
    | None => find p l2
    end.
Proof.
  induction l1 as [|a l1 IH]; simpl; [reflexivity|].
  destruct (p a); [reflexivity | exact IH].
Qed.

(** A GET route declared on a path is found, unless an earlier route
    already serves GET on that path. *)
Lemma get_findRoute_new f u response h :
  findRoute f GET u = None ->
  findRoute (get f u response h) GET u = Some (mkRoute GET u response h).
Proof.
  intros Hnone. unfold get, findRoute in *.
  assert (Hyes : jsstring_eqb u u = true) by (apply jsstring_eqb_eq; reflexivity).
  destruct (exposeHeadRoutes (options f)) as [[|]|]; simpl;
    rewrite !find_append, Hnone; simpl; rewrite Hyes; reflexivity.
Qed.

End RoutingTable.

(* ================================================================== *)
(** * What the server answers *)
(* ================================================================== *)

Section ServerBehaviour.
Import JS Fastify HealthController HealthRoutes ErrorHandlerPlugin Server.
Local Open Scope string_scope.

Lemma method_not_allowed_405_witness :
  let request := mkRequest DELETE (js "/status") (js "force=1")
                           [(js "Accept", js "*/*")] None in
  url request = js "/status"
  /\ In (method request) [POST; PUT; DELETE; PATCH]
  /\ needsBodyParser request = false
  /\ validOptions noOptions = true
  /\ invoked (buildServer noOptions) request = Some MethodNotAllowedHandler
  /\ inject (buildServer noOptions) request =
       Replied {| raw_statusCode := Num 405;
                  payload :=
                    Some (JObj [ ("statusCode", JNum (Num 405));
                                 ("error", JStr (js "Method Not Allowed"));
                                 ("message",
                                  JStr (js "GET method required for /status endpoint")) ]);
                  sent := true |}.
Proof.
  intros request.
  assert (Hm : In (method request) [POST; PUT; DELETE; PATCH])
    by (simpl; tauto).
  refine (conj eq_refl (conj Hm (conj eq_refl (conj eq_refl _)))).
  exact (method_not_allowed_405 noOptions request eq_refl eq_refl Hm eq_refl).
Defined.

(** [healthRoutes] declares routes on [/status] only: a request to any
    other plain path, whatever its method, finds no route on the server
    (for a request that announces no body). *)
Theorem other_paths_not_found (opts : FastifyServerOptions)
    (request : FastifyRequest) :
  validOptions opts = true ->
  plainPath (url request) = true ->
  needsBodyParser request = false ->
  url request <> js "/status" ->
  invoked (buildServer opts) request = None
  /\ inject (buildServer opts) request = RouteNotFound.
Proof.
  intros _ Hplain _ Hne.
  assert (Hnone : findRoute (buildServer opts) (method request) (url request)
                  = None).
  { apply findRoute_other_path. intros r Hin Hu.
    apply buildServer_routes in Hin as [Hurl _]. congruence. }
  unfold inject, invoked. rewrite Hplain, Hnone. split; reflexivity.
Qed.

Lemma other_paths_not_found_witness :
  let request := mkRequest GET (js "/invalid-route") [] [] None in
  validOptions noOptions = true
  /\ plainPath (url request) = true
  /\ needsBodyParser request = false
  /\ url request <> js "/status"
  /\ inject (buildServer noOptions) request = RouteNotFound.
Proof.
  intros request.
  assert (Hne : url request <> js "/status") by discriminate.
  exact (conj eq_refl (conj eq_refl (conj eq_refl (conj Hne
           (proj2 (other_paths_not_found noOptions request
                     eq_refl eq_refl eq_refl Hne)))))).
Defined.





(** The object a GET request is answered with satisfies the response
    schema that its route declares for the status of the reply. *)
Theorem replies_conform_to_schema (opts : FastifyServerOptions)
    (request : FastifyRequest) (route : Route) (reply : FastifyReply)
    (z : Z) (s : Schema) :
  validOptions opts = true ->
  method request = GET ->
  findRoute (buildServer opts) (method request) (url request) = Some route ->
  inject (buildServer opts) request = Replied reply ->
  raw_statusCode reply = Num z ->
  In (z, s) (route_response route) ->
  exists p, payload reply = Some p /\ conforms s p = true.
Proof.
  intros _ Hget Hfind Hinject Hcode Hschema.
  unfold inject, invoked, runHandler in Hinject.
  destruct (plainPath (url request)); [|discriminate].
  rewrite Hfind in Hinject. cbn [option_map] in Hinject.
  assert (Hparse : needsBodyParser request = false)
    by (unfold needsBodyParser; now rewrite Hget).
  rewrite Hparse in Hinject.
  apply findRoute_Some in Hfind as (Hin & _).
  apply buildServer_routes in Hin
    as (_ & [(_ & Hh & Hresp) | (_ & Hh & Hresp)]);
    rewrite Hresp in Hschema; [|contradiction].
  rewrite Hh in Hinject. simpl in Hinject. inversion Hinject; subst reply.
  destruct Hschema as [Hs | []]. inversion Hs; subst s.
  eexists. split; reflexivity.
Qed.

Lemma replies_conform_to_schema_witness :
  let request := mkRequest GET (js "/status") [] [] None in
  let route := mkRoute GET (js "/status") statusSchema HealthController in
  let reply := {| raw_statusCode := Num 200;
                  payload := Some (JObj [("status", JStr (js "ok"))]);
                  sent := true |} in
  let schema := SObject [("status", SString (Some (js "ok")))] ["status"] in
  validOptions noOptions = true
  /\ method request = GET
  /\ findRoute (buildServer noOptions) (method request) (url request)
     = Some route
  /\ inject (buildServer noOptions) request = Replied reply
  /\ In (200%Z, schema) (route_response route)
  /\ exists p, payload reply = Some p /\ conforms schema p = true.
Proof.
  intros request route reply schema.
  assert (Hin : In (200%Z, schema) (route_response route))
    by (left; reflexivity).
  refine (conj eq_refl (conj eq_refl (conj eq_refl (conj eq_refl (conj Hin _))))).
  exact (replies_conform_to_schema noOptions request route reply
           200%Z schema eq_refl eq_refl eq_refl eq_refl eq_refl Hin).
Defined.

End ServerBehaviour.

(* ================================================================== *)
(** * When the error handler answers and when it throws *)
(* ================================================================== *)

Section ErrorHandlerBehaviour.
Import JS Fastify HealthController HealthRoutes ErrorHandlerPlugin Server.
Local Open Scope string_scope.

(** [onError] itself throws exactly when [error.statusCode] is a
    non-zero integer outside 100..599: [reply.status] then refuses the
    code with the framework's [FST_ERR_BAD_STATUS_CODE] and the reply is
    left as it was, nothing sent.  When the status code is unset, NaN,
    0 or an integer from 100 to 599, [onError] returns and the reply is
    sent. *)
Theorem onError_throws_or_sends (error : FastifyError)
    (request : FastifyRequest) (reply : FastifyReply) :
  (forall z, statusCode error = Some (Num z) ->
             z <> 0%Z -> (z < 100 \/ 599 < z)%Z ->
             exists e,
               onError error request reply = (Thrown e, reply)
               /\ code e = Some (js "FST_ERR_BAD_STATUS_CODE")
               /\ statusCode e = Some (Num 500))
  /\ ((forall z, statusCode error = Some (Num z) ->
                 z = 0%Z \/ (100 <= z <= 599)%Z) ->
      exists reply',
        onError error request reply = (Returned tt, reply')
        /\ sent reply' = true).
Proof.
  split.
  - intros z Hs Hz Hrange.
    exists (FST_ERR_BAD_STATUS_CODE (Num z)).
    split; [now apply onError_invalid | split; reflexivity].
  - intros Hcode.
    assert (Hvalid : validStatusCode (or_number (statusCode error) (Num 500))
                     = true).
    { destruct (statusCode error) as [[|z]|] eqn:Hs; try reflexivity.
      simpl. destruct (Z.eqb_spec z 0) as [Hz | Hz]; [reflexivity|].
      destruct (Hcode z eq_refl) as [H0 | [Hlo Hhi]]; [contradiction|].
      simpl. apply andb_true_iff; split; apply Z.leb_le; lia. }
    unfold onError, bind, Fastify.status, send. rewrite Hvalid. simpl.
    destruct (sent reply) eqn:Hsent; eexists; split; reflexivity.
Qed.

Lemma onError_throws_or_sends_witness :
  let teapot := mkError None (Some (Num 42)) (Some (js "OddError"))
                        (js "odd") in
  let unnamed := mkError None (Some (Num 400)) (Some []) (js "Unnamed error") in
  let request := mkRequest GET (js "/unnamed-error") [] [] None in
  (exists e, onError teapot request newReply = (Thrown e, newReply)
             /\ code e = Some (js "FST_ERR_BAD_STATUS_CODE")
             /\ statusCode e = Some (Num 500))
  /\ (exists reply', onError unnamed request newReply = (Returned tt, reply')
                     /\ sent reply' = true).
Proof.
  intros teapot unnamed request.
  split.
  - refine (proj1 (onError_throws_or_sends teapot request newReply) 42%Z eq_refl _ _).
    + discriminate.
    + left. reflexivity.
  - refine (proj2 (onError_throws_or_sends unnamed request newReply) _).
    intros z Hz. right. inversion Hz; subst z. lia.
Defined.

(** An error whose [statusCode] is a non-zero integer outside 100..599,
    thrown by a route handler before a reply was sent, is not answered
    by the plugin's handler: [reply.status] refuses the code, and the
    request is left to the framework's own error handler, with the
    error [reply.status] threw. *)
Theorem invalid_status_reaches_fallback (fastify : FastifyInstance)
    (request : FastifyRequest) (h : RouteHandler)
    (error : FastifyError) (r : FastifyReply) (z : Z) :
  errorHandlerFn fastify = Some onError ->
  plainPath (url request) = true ->
  needsBodyParser request = false ->
  invoked fastify request = Some h ->
  callHandler h request newReply = (Thrown error, r) ->
  sent r = false ->
  statusCode error = Some (Num z) ->
  z <> 0%Z -> (z < 100 \/ 599 < z)%Z ->
  exists e,
    inject fastify request = FallbackErrorHandler e
    /\ code e = Some (js "FST_ERR_BAD_STATUS_CODE")
    /\ statusCode e = Some (Num 500).
Proof.
  intros Hset Hplain Hparse Hroute Hthrow Hsent Hs Hz Hrange.
  exists (FST_ERR_BAD_STATUS_CODE (Num z)).
  split; [|split; reflexivity].
  unfold inject, runHandler.
  rewrite Hplain, Hroute, Hparse, Hthrow, Hsent, Hset.
  rewrite (onError_invalid error request r z Hs Hz Hrange). reflexivity.
Qed.

Lemma invalid_status_reaches_fallback_witness :
  let error := mkError None (Some (Num 42)) (Some (js "OddError"))
                       (js "odd") in
  let fastify := get (buildServer noOptions) (js "/odd") []
                     (Inline (fun _ => throw error)) in
  let request := mkRequest GET (js "/odd") [] [] None in
  errorHandlerFn fastify = Some onError
  /\ plainPath (url request) = true
  /\ needsBodyParser request = false
  /\ invoked fastify request = Some (Inline (fun _ => throw error))
  /\ statusCode error = Some (Num 42)
  /\ exists e,
       inject fastify request = FallbackErrorHandler e
       /\ code e = Some (js "FST_ERR_BAD_STATUS_CODE")
       /\ statusCode e = Some (Num 500).
Proof.
  intros error fastify request.
  refine (conj eq_refl (conj eq_refl (conj eq_refl (conj eq_refl
            (conj eq_refl _))))).
  refine (invalid_status_reaches_fallback fastify request
            (Inline (fun _ => throw error)) error newReply 42%Z
            eq_refl eq_refl eq_refl eq_refl eq_refl eq_refl eq_refl _ _).
  - discriminate.
  - left. reflexivity.
Defined.

(** The plugin's handler also serves the routes an application declares
    on the server [buildServer] returned, as the tests of the repository
    do.  When the handler of such a GET route, declared without a
    response schema on a plain path other than [/status], throws before
    sending an error whose [statusCode] is unset, NaN, 0 or an integer
    from 200 to 599 other than 204 and 304, the request is answered
    through [onError]: with that status, or 500 when it is unset, NaN
    or 0, and the body [{ statusCode, error, message }]. *)
Theorem later_routes_use_error_handler (opts : FastifyServerOptions)
    (u : jsstring) (f : FastifyRequest -> ReplyM (option JSON))
    (request : FastifyRequest) (error : FastifyError) (r : FastifyReply) :
  validOptions opts = true ->
  plainPath u = true ->
  u <> js "/status" ->
  method request = GET ->
  url request = u ->
  f request newReply = (Thrown error, r) ->
  sent r = false ->
  (forall z, statusCode error = Some (Num z) ->
             z = 0%Z \/ ((200 <= z <= 599)%Z /\ z <> 204%Z /\ z <> 304%Z)) ->
  let code :=
    match statusCode error with
    | Some (Num z) => if Z.eqb z 0 then 500%Z else z
    | Some NaN | None => 500%Z
    end in
  let errorName :=
    match name error with
    | Some (c :: s) => c :: s
    | Some [] | None => js "Error"
    end in
  inject (get (buildServer opts) u [] (Inline f)) request =
    Replied {| raw_statusCode := Num code;
               payload := Some (JObj [ ("statusCode", JNum (Num code));
                                       ("error", JStr errorName);
                                       ("message", JStr (message error)) ]);
               sent := true |}.
Proof.
  intros _ Hplain Hne Hm Hu Hthrow Hsent Hcode code errorName.
  assert (Hor : or_number (statusCode error) (Num 500) = Num code).
  { subst code. unfold or_number, truthy_number.
    destruct (statusCode error) as [[|z]|]; try reflexivity.
    destruct (Z.eqb z 0); reflexivity. }
  assert (Hname : or_string (name error) (js "Error") = errorName).
  { subst errorName. destruct (name error) as [[|c s]|]; reflexivity. }
  assert (Hvalid : validStatusCode (or_number (statusCode error) (Num 500))
                   = true).
  { rewrite Hor. subst code. simpl.
    destruct (statusCode error) as [[|z]|] eqn:Hs; try reflexivity.
    destruct (Z.eqb_spec z 0) as [Hz | Hz]; [reflexivity|].
    destruct (Hcode z eq_refl) as [H0 | [[Hlo Hhi] _]]; [contradiction|].
    apply andb_true_iff; split; apply Z.leb_le; lia. }
  assert (Hnone : findRoute (buildServer opts) GET u = None).
  { apply findRoute_other_path. intros x Hin Hx.
    apply buildServer_routes in Hin as [Hurl _]. congruence. }
  assert (Hparse : needsBodyParser request = false)
    by (unfold needsBodyParser; now rewrite Hm).
  unfold inject, invoked, runHandler. rewrite Hparse, Hm, Hu, Hplain.
  rewrite (get_findRoute_new _ u [] (Inline f) Hnone). simpl.
  rewrite Hthrow, Hsent, get_errorHandler, buildServer_errorHandler.
  rewrite (onError_valid error request r Hsent Hvalid), Hor, Hname.
  reflexivity.
Qed.

Lemma later_routes_use_error_handler_witness :
  let error := mkError None None (Some (js "Error")) (js "Test error") in
  let request := mkRequest GET (js "/test-error") [] [] None in
  validOptions noOptions = true
  /\ plainPath (js "/test-error") = true
  /\ js "/test-error" <> js "/status"
  /\ inject (get (buildServer noOptions) (js "/test-error") []
                 (Inline (fun _ => throw error))) request =
       Replied {| raw_statusCode := Num 500;
                  payload :=
                    Some (JObj [ ("statusCode", JNum (Num 500));
                                 ("error", JStr (js "Error"));
                                 ("message", JStr (js "Test error")) ]);
                  sent := true |}.
Proof.
  intros error request.
  assert (Hne : js "/test-error" <> js "/status") by discriminate.
  refine (conj eq_refl (conj eq_refl (conj Hne _))).
  refine (later_routes_use_error_handler noOptions (js "/test-error")
            (fun _ => throw error) request error newReply
            eq_refl eq_refl Hne eq_refl eq_refl eq_refl eq_refl _).
  intros z Hz. discriminate Hz.
Defined.

End ErrorHandlerBehaviour.

(* ================================================================== *)
(** * What the configuration reads *)
(* ================================================================== *)

Section ConfigurationBehaviour.
Import JS Environment.
Local Open Scope string_scope.

Lemma js_String (c : ascii) (s : string) :
  js (String c s) = N_of_ascii c :: js s.
Proof. reflexivity. Qed.

Lemma trimStart_whitespace (ws s : jsstring) :
  forallb isWhiteSpace ws = true -> trimStart (ws ++ s)%list = trimStart s.
Proof.
  induction ws as [|c ws IH]; simpl; [reflexivity|].
  intros H. apply andb_true_iff in H as [Hc Hws].
  rewrite Hc. exact (IH Hws).
Qed.

(** Evaluate [radixDigit] on the code unit of a literal character. *)
Ltac read_digit :=
  match goal with
  | |- context [radixDigit 10 (N_of_ascii ?c)] =>
      let v := eval vm_compute in (radixDigit 10 (N_of_ascii c)) in
      change (radixDigit 10 (N_of_ascii c)) with v
  end.

(** Reading the decimal digits of [d] from left to right, with the
    accumulator of [parseInt], gives the number [d] denotes. *)
Lemma digits_of_uint_acc (d : Decimal.uint) (rest : jsstring) (acc : positive) :
  startsWithDecimalDigit rest = false ->
  fold_left (fun a x => 10 * a + x)%Z
            (digitsPrefix 10 (js (NilEmpty.string_of_uint d) ++ rest)%list)
            (Z.pos acc)
  = Z.pos (Pos.of_uint_acc d acc).
Proof.
  intros Hrest. revert acc.
  induction d as [|d IH|d IH|d IH|d IH|d IH|d IH|d IH|d IH|d IH|d IH];
    intros acc;
    cbn [NilEmpty.string_of_uint Pos.of_uint_acc];
    rewrite ?js_String;
    [ simpl; apply digitsPrefix_decimal_nil in Hrest; rewrite Hrest; reflexivity
    | cbn [app digitsPrefix]; read_digit; cbn [fold_left];
      rewrite <- IH; f_equal; lia .. ].
Qed.

Lemma digits_of_uint (d : Decimal.uint) (rest : jsstring) :
  startsWithDecimalDigit rest = false ->
  mathInt 10 (digitsPrefix 10 (js (NilEmpty.string_of_uint d) ++ rest)%list)
  = Z.of_N (Pos.of_uint d).
Proof.
  intros Hrest. unfold mathInt.
  induction d as [|d IH|d IH|d IH|d IH|d IH|d IH|d IH|d IH|d IH|d IH];
    cbn [NilEmpty.string_of_uint Pos.of_uint];
    rewrite ?js_String;
    [ simpl; apply digitsPrefix_decimal_nil in Hrest; rewrite Hrest; reflexivity
    | cbn [app digitsPrefix]; read_digit; cbn [fold_left]; exact IH
    | cbn [app digitsPrefix]; read_digit; cbn [fold_left];
      cbn [Z.of_N]; rewrite <- (digits_of_uint_acc d rest _ Hrest);
      reflexivity .. ].
Qed.

(** The text [NilZero.string_of_uint] writes starts with a digit and
    reads back as the number it was written from. *)
Lemma uint_text (d : Decimal.uint) (rest : jsstring) :
  startsWithDecimalDigit rest = false ->
  startsWithDecimalDigit (js (NilZero.string_of_uint d) ++ rest)%list = true
  /\ mathInt 10 (digitsPrefix 10 (js (NilZero.string_of_uint d) ++ rest)%list)
     = Z.of_N (Pos.of_uint d).
Proof.
  intros Hrest.
  destruct d;
    [ split; [reflexivity|];
      change (js (NilZero.string_of_uint Decimal.Nil))
        with (js (NilEmpty.string_of_uint (Decimal.D0 Decimal.Nil)));
      exact (digits_of_uint (Decimal.D0 Decimal.Nil) rest Hrest)
    | (split; [reflexivity | exact (digits_of_uint _ rest Hrest)]) .. ].
Qed.

(** A decimal digit is neither white space nor a sign. *)
Lemma decimal_digit_plain (c : N) :
  ((48 <=? c) && (c <=? 57))%N = true ->
  isWhiteSpace c = false /\ c <> 45%N /\ c <> 43%N.
Proof.
  intros H. apply andb_true_iff in H as [H1 H2].
  apply N.leb_le in H1, H2.
  assert (Hc : (c = 48 \/ c = 49 \/ c = 50 \/ c = 51 \/ c = 52 \/ c = 53
                \/ c = 54 \/ c = 55 \/ c = 56 \/ c = 57)%N) by lia.
  repeat (destruct Hc as [-> | Hc]; [repeat split; (reflexivity || discriminate)|]).
  subst c. repeat split; (reflexivity || discriminate).
Qed.

(** [parseInt] with the radix 10 of [environment.ts]. *)
Lemma parseInt_radix10 (s : jsstring) :
  parseInt s 10 =
    match digitsPrefix 10 (snd (splitSign (trimStart s))) with
    | [] => NaN
    | ds => Num (fst (splitSign (trimStart s)) * mathInt 10 ds)
    end.
Proof.
  unfold parseInt. destruct (splitSign (trimStart s)) as [sign rest].
  reflexivity.
Qed.

(** [parseInt(s, 10)] on a string that starts with a digit. *)
Lemma parseInt_unsigned (s : jsstring) :
  startsWithDecimalDigit s = true ->
  parseInt s 10 = Num (mathInt 10 (digitsPrefix 10 s)).
Proof.
  intros Hs. rewrite parseInt_radix10.
  destruct s as [|c tl]; [discriminate|]. simpl in Hs.
  destruct (decimal_digit_plain c Hs) as (Hws & Hminus & Hplus).
  assert (Htrim : trimStart (c :: tl) = c :: tl) by (simpl; now rewrite Hws).
  assert (Hsign : splitSign (c :: tl) = (1, c :: tl)).
  { unfold splitSign.
    destruct c as [|p]; [reflexivity|].
    do 6 (destruct p as [p|p|]; try reflexivity); congruence. }
  rewrite Htrim, Hsign. cbn [fst snd].
  destruct (digitsPrefix 10 (c :: tl)) as [|x xs] eqn:Hds.
  - apply digitsPrefix_decimal_nil in Hds. simpl in Hds. congruence.
  - apply f_equal. lia.
Qed.

(** ... and on one that starts with a minus sign, then a digit. *)
Lemma parseInt_negative (s : jsstring) :
  startsWithDecimalDigit s = true ->
  parseInt (45%N :: s) 10 = Num (- mathInt 10 (digitsPrefix 10 s)).
Proof.
  intros Hs. rewrite parseInt_radix10.
  change (trimStart (45%N :: s)) with (45%N :: s).
  change (splitSign (45%N :: s)) with ((-1)%Z, s).
  cbn [fst snd].
  destruct (digitsPrefix 10 s) as [|x xs] eqn:Hds.
  - apply digitsPrefix_decimal_nil in Hds. congruence.
  - apply f_equal. lia.
Qed.

(** Leading white space does not count. *)
Lemma parseInt_leading_whitespace (ws s : jsstring) (radix : Z) :
  forallb isWhiteSpace ws = true ->
  parseInt (ws ++ s)%list radix = parseInt s radix.
Proof.
  intros Hws. unfold parseInt. now rewrite trimStart_whitespace.
Qed.

(** The digits [parseInt] reads from the decimal text of an integer
    denote that integer, whatever white space comes before the text and
    whatever text that does not start with a digit comes after it. *)
Lemma parseInt_decimal_text (z : Z) (ws rest : jsstring) :
  forallb isWhiteSpace ws = true ->
  startsWithDecimalDigit rest = false ->
  parseInt (ws ++ js (NilZero.string_of_int (Z.to_int z)) ++ rest)%list 10
  = Num z.
Proof.
  intros Hws Hrest. rewrite parseInt_leading_whitespace by exact Hws.
  rewrite <- (DecimalZ.of_to z) at 2.
  destruct (Z.to_int z) as [d|d]; cbn [NilZero.string_of_int Z.of_int].
  - destruct (uint_text d rest Hrest) as [Hstart Hval].
    rewrite parseInt_unsigned by exact Hstart.
    rewrite Hval. reflexivity.
  - destruct (uint_text d rest Hrest) as [Hstart Hval].
    rewrite js_String. cbn [app].
    change (N_of_ascii "-") with 45%N.
    rewrite parseInt_negative by exact Hstart.
    rewrite Hval. reflexivity.
Qed.

(** [config.port] reads a decimal [PORT] back exactly, for every integer
    up to 2^53 in magnitude (negative ones and ones that are no TCP
    port included), and does so too when white space comes before the
    number or when text that does not start with a digit comes after
    it: nothing of [PORT] is checked beyond its leading number. *)
Theorem config_port_reads_decimal (env : ProcessEnv) (z : Z)
    (ws rest : jsstring) :
  (Z.abs z <= 2 ^ 53)%Z ->
  forallb isWhiteSpace ws = true ->
  startsWithDecimalDigit rest = false ->
  env "PORT" =
    Some (ws ++ js (NilZero.string_of_int (Z.to_int z)) ++ rest)%list ->
  port (config env) = Num z.
Proof.
  intros _ Hws Hrest Henv.
  pose proof (parseInt_decimal_text z ws rest Hws Hrest) as Hp.
  unfold config; simpl. rewrite Henv.
  destruct (ws ++ js (NilZero.string_of_int (Z.to_int z)) ++ rest)%list
    as [|c tl]; [discriminate Hp | exact Hp].
Qed.

Lemma config_port_reads_decimal_witness :
  let env := env_of [("PORT", js " 70000abc")] in
  (Z.abs 70000 <= 2 ^ 53)%Z
  /\ forallb isWhiteSpace (js " ") = true
  /\ startsWithDecimalDigit (js "abc") = false
  /\ env "PORT" = Some (js " 70000abc")
  /\ port (config env) = Num 70000.
Proof.
  intros env.
  assert (Hbound : (Z.abs 70000 <= 2 ^ 53)%Z) by (vm_compute; discriminate).
  refine (conj Hbound (conj eq_refl (conj eq_refl (conj eq_refl _)))).
  exact (config_port_reads_decimal env 70000 (js " ") (js "abc")
           Hbound eq_refl eq_refl eq_refl).
Defined.

(** [config.host] and [config.nodeEnv] are never empty: each is the value
    of its variable when that is set and not empty, and the default
    (['0.0.0.0'], ['production']) also when the variable is set to the
    empty string. *)
Theorem config_host_nodeEnv (env : ProcessEnv) :
  host (config env) <> []
  /\ nodeEnv (config env) <> []
  /\ (forall v, env "HOST" = Some v -> v <> [] -> host (config env) = v)
  /\ (env "HOST" = Some [] -> host (config env) = js "0.0.0.0")
  /\ (forall v, env "NODE_ENV" = Some v -> v <> [] ->
                nodeEnv (config env) = v)
  /\ (env "NODE_ENV" = Some [] -> nodeEnv (config env) = js "production").
Proof.
  unfold config; simpl.
  refine (conj _ (conj _ (conj _ (conj _ (conj _ _))))).
  - destruct (env "HOST") as [[|c v]|]; discriminate.
  - destruct (env "NODE_ENV") as [[|c v]|]; discriminate.
  - intros v Hv Hne. rewrite Hv. now apply or_string_nonempty.
  - intros Hv. now rewrite Hv.
  - intros v Hv Hne. rewrite Hv. now apply or_string_nonempty.
  - intros Hv. now rewrite Hv.
Qed.

Lemma config_host_nodeEnv_witness :
  let env := env_of [("HOST", js "127.0.0.1"); ("NODE_ENV", [])] in
  env "HOST" = Some (js "127.0.0.1")
  /\ env "NODE_ENV" = Some []
  /\ host (config env) = js "127.0.0.1"
  /\ nodeEnv (config env) = js "production".
Proof.
  intros env.
  destruct (config_host_nodeEnv env) as (_ & _ & Hhost & _ & _ & Hnode).
  refine (conj eq_refl (conj eq_refl (conj _ _))).
  - apply (Hhost (js "127.0.0.1") eq_refl). discriminate.
  - apply Hnode. reflexivity.
Defined.

End ConfigurationBehaviour.
